(** * Cards.tsx: the [Card] and [CardGroup] components

    A shallow embedding of [docs/docs-beta/src/components/Cards.tsx] and the
    properties of its two render functions.

    The file has three layers:
    - [JS]: the part of the language the components rely on, which is the
      conversion of a number to a string inside a template literal;
    - [React]: element trees, the value a JSX expression evaluates to, and
      the functions used to observe them;
    - the components themselves, first as functions from props to element
      trees, then (module [Alloc]) with the allocation of a fresh object by
      every JSX expression made explicit.

    Class strings are read as the stylesheet reads them, as lists of names
    separated by white space ([classTokens]). *)

From Stdlib Require Import String Ascii List ZArith Bool Lia.
From Stdlib Require Import Numbers.DecimalString.
From ExtLib Require Import Structures.Monad Structures.MonadState.
From ExtLib Require Import Data.Monads.StateMonad.
Import ListNotations.
Open Scope string_scope.
Set Warnings "-register-all".

(* ===================================================================== *)
(** ** JavaScript numbers and their conversion to a string *)
(* ===================================================================== *)

Module JS.

(** A JavaScript [number] is an IEEE double.  The only operation the
    components apply to one is [ToString] (the template literal
    [`cols-${cols}`]), and ECMAScript defines [Number::toString] from the
    shortest decimal expansion of the double: integers [s], [k], [n] with
    [10^(k-1) <= s < 10^k], value [s * 10^(n-k)] and [k] minimal.  A finite
    nonzero number is therefore represented by its sign, [s] and [n]; [k] is
    the number of decimal digits of [s].  Every double has such a
    representation, so a statement about all [number]s covers all doubles. *)
Inductive number : Type :=
| NaN
| Zero (negative : bool)
| Infinity (negative : bool)
| Finite (negative : bool) (s : positive) (n : Z).

(** The decimal digits of [s], most significant first. *)
Definition digits (s : positive) : string :=
  NilEmpty.string_of_uint (Pos.to_uint s).

Fixpoint zeros (count : nat) : string :=
  match count with
  | O => ""
  | S count' => "0" ++ zeros count'
  end.

(** Steps 5 to 10 of [Number::toString] for radix 10, on a positive finite
    number given by [s] and [n]. *)
Definition toString_finite (s : positive) (n : Z) : string :=
  let d := digits s in
  let k := Z.of_nat (String.length d) in
  if ((-5 <=? n) && (n <=? 21))%Z then
    if (k <=? n)%Z then
      d ++ zeros (Z.to_nat (n - k))
    else if (0 <? n)%Z then
      substring 0 (Z.to_nat n) d ++ "." ++
      substring (Z.to_nat n) (Z.to_nat (k - n)) d
    else
      "0." ++ zeros (Z.to_nat (- n)) ++ d
  else
    let e := (n - 1)%Z in
    let sign := if (e <? 0)%Z then "-" else "+" in
    let exponent := digits (Z.to_pos (Z.abs e)) in
    if (k =? 1)%Z then
      d ++ "e" ++ sign ++ exponent
    else
      substring 0 1 d ++ "." ++ substring 1 (Z.to_nat (k - 1)) d ++
      "e" ++ sign ++ exponent.

(** [Number::toString(x)], radix 10. *)
Definition Number_toString (x : number) : string :=
  match x with
  | NaN => "NaN"
  | Zero _ => "0"
  | Infinity false => "Infinity"
  | Infinity true => "-Infinity"
  | Finite false s n => toString_finite s n
  | Finite true s n => "-" ++ toString_finite s n
  end.

(** The number with integer value [z]: trailing zeros of the decimal
    numeral go to the exponent, so that [s] is the shortest expansion. *)
Definition number_of_Z (z : Z) : number :=
  match z with
  | Z0 => Zero false
  | Zpos p | Zneg p =>
      let numeral := Pos.to_uint p in
      let s := Pos.of_uint (Decimal.rev (Decimal.unorm (Decimal.rev numeral))) in
      match s with
      | N0 => Zero false
      | Npos s => Finite (z <? 0)%Z s (Z.of_nat (Decimal.nb_digits numeral))
      end
  end.

(** "[cols] is a positive integer", the layout's expectation of [cols]:
    a positive finite number with no digit after the decimal point. *)
Definition is_positive_integer (x : number) : bool :=
  match x with
  | Finite false s n => (Z.of_nat (String.length (digits s)) <=? n)%Z
  | _ => false
  end.

(** The integers from [lo], [count] of them (to check the conversion on a
    range). *)
Fixpoint Zrange (lo : Z) (count : nat) : list Z :=
  match count with
  | O => []
  | S count' => lo :: Zrange (lo + 1) count'
  end.

End JS.

(* ===================================================================== *)
(** ** React element trees *)
(* ===================================================================== *)

Module React.

(** The [type] of an element: a host tag (['h3'], ['div']) or a component,
    which is identified by the name it is imported or declared under. *)
Inductive ElementType : Type :=
| Host (tag : string)
| Component (name : string).

(** [React.ReactNode]: what a component may receive as [children] and what
    it returns.  An element is its type and its props object, the props in
    the order the JSX expression writes them, [children] last.  A prop value
    is itself a node (attribute strings are [RString]).  The [key] and [ref]
    of an element are left out: no JSX expression of the file sets them.
    JavaScript strings are modelled by [string]; the components only
    concatenate them. *)
Inductive ReactNode : Type :=
| RUndefined
| RNull
| RBoolean (b : bool)
| RNumber (x : JS.number)
| RString (s : string)
| RArray (items : list ReactNode)
| RElement (type : ElementType) (props : list (string * ReactNode)).

(** The JSX runtime: [<T a={x} ...>child</T>] is [jsx T {a: x, ..., children:
    child}]; an element written with no child has no [children] prop; one
    written with several children gets them as an array ([jsxs]). *)
Definition jsx (type : ElementType) (props : list (string * ReactNode))
  : ReactNode :=
  RElement type props.

Definition jsxs (type : ElementType) (props : list (string * ReactNode))
  (children : list ReactNode) : ReactNode :=
  RElement type (props ++ [("children", RArray children)]).

(** *** Observing a tree *)

Definition ElementType_eqb (a b : ElementType) : bool :=
  match a, b with
  | Host x, Host y => String.eqb x y
  | Component x, Component y => String.eqb x y
  | _, _ => false
  end.

(** [props[key]] on a props object. *)
Fixpoint lookup (key : string) (props : list (string * ReactNode))
  : option ReactNode :=
  match props with
  | [] => None
  | (k, v) :: rest => if String.eqb k key then Some v else lookup key rest
  end.

Definition elementType (node : ReactNode) : option ElementType :=
  match node with
  | RElement type _ => Some type
  | _ => None
  end.

Definition propsOf (node : ReactNode) : list (string * ReactNode) :=
  match node with
  | RElement _ props => props
  | _ => []
  end.

(** [node.props[key]]; [None] when [node] is no element or has no such
    prop. *)
Definition getProp (key : string) (node : ReactNode) : option ReactNode :=
  lookup key (propsOf node).

(** The class string of an element. *)
Definition classOf (node : ReactNode) : option string :=
  match getProp "className" node with
  | Some (RString s) => Some s
  | _ => None
  end.

(** A [children] value read as a sequence: an array is its items in order,
    any other value is a single child. *)
Definition items (children : ReactNode) : list ReactNode :=
  match children with
  | RArray l => l
  | c => [c]
  end.

(** The children of an element, in order; none when the element has no
    [children] prop. *)
Definition childNodes (node : ReactNode) : list ReactNode :=
  match getProp "children" node with
  | Some c => items c
  | None => []
  end.

(** The number of elements of type [t] anywhere in a tree. *)
Fixpoint countType (t : ElementType) (node : ReactNode) : nat :=
  match node with
  | RArray l => list_sum (map (countType t) l)
  | RElement type props =>
      (if ElementType_eqb type t then 1 else 0) +
      list_sum (map (fun kv => countType t (snd kv)) props)
  | _ => 0
  end.

(** Every class string carried by an element of a tree, in document order
    (an element before its descendants). *)
Fixpoint classNames (node : ReactNode) : list string :=
  match node with
  | RArray l => flat_map classNames l
  | RElement _ props =>
      match lookup "className" props with
      | Some (RString s) => [s]
      | _ => []
      end ++ flat_map (fun kv => classNames (snd kv)) props
  | _ => []
  end.

(** An element with one of its props left out; other nodes unchanged. *)
Definition withoutProp (key : string) (node : ReactNode) : ReactNode :=
  match node with
  | RElement type props =>
      RElement type (filter (fun kv => negb (String.eqb (fst kv) key)) props)
  | n => n
  end.

(** The elements among the children of [node] that have type [t]. *)
Definition childrenOfType (t : ElementType) (node : ReactNode)
  : list ReactNode :=
  filter
    (fun c => match elementType c with
              | Some t' => ElementType_eqb t' t
              | None => false
              end)
    (childNodes node).

End React.

Import JS React.

(* ===================================================================== *)
(** ** The components *)
(* ===================================================================== *)

(** [import Link from '@docusaurus/Link']: the link primitive of the host
    framework, opaque to this file. *)
Definition Link : ElementType := Component "Link".

Module Cards.

(** [interface CardProps] *)
Module CardProps.
Record t : Type := Build {
    title : string;
    icon : string;
    href : string;
    children : ReactNode
  }.
End CardProps.

(** [interface CardGroupProps] *)
Module CardGroupProps.
Record t : Type := Build {
    cols : number;
    children : ReactNode
  }.
End CardGroupProps.

(** [const Card: React.FC<CardProps>]: a link of class ["card"] to [href]
    around a heading, a glyph and a paragraph.  In the template literal
    [`icon-${icon}`] the string [icon] is inserted as it is. *)
Definition Card (props : CardProps.t) : ReactNode :=
  let '(CardProps.Build title icon href children) := props in
  jsxs Link [("to", RString href); ("className", RString "card")]
    [ jsx (Host "h3") [("children", RString title)];
      jsx (Host "i") [("className", RString ("icon-" ++ icon))];
      jsx (Host "p") [("children", children)] ].

(** [const CardGroup: React.FC<CardGroupProps>]: a [<div>] around
    [children].  In [`card-group cols-${cols}`] the number [cols] is
    converted by [Number::toString]. *)
Definition CardGroup (props : CardGroupProps.t) : ReactNode :=
  let '(CardGroupProps.Build cols children) := props in
  jsx (Host "div")
    [("className", RString ("card-group cols-" ++ Number_toString cols));
     ("children", children)].

End Cards.

(* ===================================================================== *)
(** ** Object identity *)
(* ===================================================================== *)

(** Every evaluation of a JSX expression creates a new element object, so
    two calls of a component never return the same object.  Here each
    element carries the reference it was allocated at, and the components
    run in a state monad whose state is the next free reference. *)
Module Alloc.

Import MonadNotation.
Local Open Scope monad_scope.

Inductive Obj : Type :=
| OUndefined
| ONull
| OBoolean (b : bool)
| ONumber (x : number)
| OString (s : string)
| OArray (items : list Obj)
| OElement (ref : nat) (type : ElementType) (props : list (string * Obj)).

(** The tree an object denotes: its structure without the references. *)
Fixpoint erase (o : Obj) : ReactNode :=
  match o with
  | OUndefined => RUndefined
  | ONull => RNull
  | OBoolean b => RBoolean b
  | ONumber x => RNumber x
  | OString s => RString s
  | OArray l => RArray (map erase l)
  | OElement _ type props =>
      RElement type (map (fun kv => (fst kv, erase (snd kv))) props)
  end.

(** An object that denotes a given tree, every element at reference
    [ref]. *)
Fixpoint inject (ref : nat) (node : ReactNode) : Obj :=
  match node with
  | RUndefined => OUndefined
  | RNull => ONull
  | RBoolean b => OBoolean b
  | RNumber x => ONumber x
  | RString s => OString s
  | RArray l => OArray (map (inject ref) l)
  | RElement type props =>
      OElement ref type (map (fun kv => (fst kv, inject ref (snd kv))) props)
  end.

(** The reference of an element object. *)
Definition refOf (o : Obj) : option nat :=
  match o with
  | OElement ref _ _ => Some ref
  | _ => None
  end.

Definition fresh : state nat nat :=
  ref <- get ;;
  put (S ref) ;;
  ret ref.

Definition jsx (type : ElementType) (props : list (string * Obj))
  : state nat Obj :=
  ref <- fresh ;;
  ret (OElement ref type props).

Definition jsxs (type : ElementType) (props : list (string * Obj))
  (children : list Obj) : state nat Obj :=
  ref <- fresh ;;
  ret (OElement ref type (props ++ [("children", OArray children)])).

Module CardProps.
Record t : Type := Build {
    title : string;
    icon : string;
    href : string;
    children : Obj
  }.

Definition erase (props : t) : Cards.CardProps.t :=
    Cards.CardProps.Build (title props) (icon props) (href props)
      (Alloc.erase (children props)).

Definition inject (ref : nat) (props : Cards.CardProps.t) : t :=
    Build (Cards.CardProps.title props) (Cards.CardProps.icon props)
      (Cards.CardProps.href props)
      (Alloc.inject ref (Cards.CardProps.children props)).
End CardProps.

Module CardGroupProps.
Record t : Type := Build {
    cols : number;
    children : Obj
  }.

Definition erase (props : t) : Cards.CardGroupProps.t :=
    Cards.CardGroupProps.Build (cols props) (Alloc.erase (children props)).

Definition inject (ref : nat) (props : Cards.CardGroupProps.t) : t :=
    Build (Cards.CardGroupProps.cols props)
      (Alloc.inject ref (Cards.CardGroupProps.children props)).
End CardGroupProps.

(** The child elements are created before the element that holds them:
    they are arguments of its construction. *)
Definition Card (props : CardProps.t) : state nat Obj :=
  let '(CardProps.Build title icon href children) := props in
  heading <- jsx (Host "h3") [("children", OString title)] ;;
  glyph <- jsx (Host "i") [("className", OString ("icon-" ++ icon))] ;;
  body <- jsx (Host "p") [("children", children)] ;;
  jsxs Link [("to", OString href); ("className", OString "card")]
    [heading; glyph; body].

Definition CardGroup (props : CardGroupProps.t) : state nat Obj :=
  let '(CardGroupProps.Build cols children) := props in
  jsx (Host "div")
    [("className", OString ("card-group cols-" ++ Number_toString cols));
     ("children", children)].

(** The references of the elements of an object, the element before what
    its props hold. *)
Fixpoint refs (o : Obj) : list nat :=
  match o with
  | OArray l => flat_map refs l
  | OElement ref _ props => ref :: flat_map (fun kv => refs (snd kv)) props
  | _ => []
  end.

(** The invariant of the allocator on an object: no two of its elements
    share a reference, and every reference was handed out before [next]. *)
Definition wellFormed (next : nat) (o : Obj) : Prop :=
  NoDup (refs o) /\ Forall (fun ref => ref < next) (refs o).

(** Two calls in a row, as a parent that renders the component twice. *)
Definition twice {A : Type} (render : state nat A) : state nat (A * A) :=
  first <- render ;;
  second <- render ;;
  ret (first, second).

End Alloc.

Import Cards.

(** The three elements [Card] places inside the link, as the JSX writes
    them: [<h3>{title}</h3>], [<i className={`icon-${icon}`}></i>] and
    [<p>{children}</p>]. *)
Definition heading (title : string) : ReactNode :=
  RElement (Host "h3") [("children", RString title)].

Definition glyph (icon : string) : ReactNode :=
  RElement (Host "i") [("className", RString ("icon-" ++ icon))].

Definition body (children : ReactNode) : ReactNode :=
  RElement (Host "p") [("children", children)].

(* ===================================================================== *)
(** ** Class strings *)
(* ===================================================================== *)

(** A [className] is read by the stylesheet as a list of names separated by
    white space. *)
Definition isSpace (c : ascii) : bool :=
  existsb (Ascii.eqb c) [" "; "009"; "010"; "012"; "013"]%char.

Fixpoint hasSpace (s : string) : bool :=
  match s with
  | EmptyString => false
  | String c rest => isSpace c || hasSpace rest
  end.

(** The pieces of [s] between its white space characters, empty pieces
    included. *)
Fixpoint splitSpaces (s : string) : list string :=
  match s with
  | EmptyString => [""]
  | String c rest =>
      if isSpace c then "" :: splitSpaces rest
      else match splitSpaces rest with
           | [] => [String c ""]
           | piece :: pieces => String c piece :: pieces
           end
  end.

(** The names of a class string, in order, repeats included. *)
Definition classTokens (s : string) : list string :=
  filter (fun piece => negb (String.eqb piece "")) (splitSpaces s).

Fixpoint memChar (c : ascii) (alphabet : string) : bool :=
  match alphabet with
  | EmptyString => false
  | String a rest => Ascii.eqb c a || memChar c rest
  end.

(** Every character of [s] is one of [alphabet]. *)
Fixpoint charsIn (alphabet s : string) : bool :=
  match s with
  | EmptyString => true
  | String c rest => memChar c alphabet && charsIn alphabet rest
  end.

(** The characters [Number::toString] can produce in radix 10: the digits
    and those of ["."], ["e+"], ["e-"], ["-"], ["NaN"] and ["Infinity"]. *)
Definition numberAlphabet : string := "0123456789.e+-NaInfity".

(* ===================================================================== *)
(** ** Strings and numbers: auxiliary facts *)
(* ===================================================================== *)

Lemma substring_all (s : string) : substring 0 (String.length s) s = s.
Proof.
  induction s as [| c s IH]; simpl.
  - reflexivity.
  - now rewrite IH.
Qed.

Lemma length_append (a b : string) :
  String.length (a ++ b) = String.length a + String.length b.
Proof.
  induction a as [| c a IH]; simpl; [reflexivity | now rewrite IH].
Qed.

(** Dropping a prefix from a concatenation gives back the suffix. *)
Lemma substring_append (a b : string) :
  substring (String.length a) (String.length b) (a ++ b) = b.
Proof.
  induction a as [| c a IH]; simpl.
  - apply substring_all.
  - exact IH.
Qed.

Lemma prefix_append (a b : string) : prefix a (a ++ b) = true.
Proof.
  induction a as [| c a IH]; simpl.
  - now destruct b.
  - destruct (ascii_dec c c) as [_ | ne]; [exact IH | now elim ne].
Qed.

(** On integers, [Number_toString] prints the decimal numeral; checked on
    every integer from -1200 to 1200. *)
Example Number_toString_integers :
  forallb
    (fun z => String.eqb (Number_toString (number_of_Z z))
                (NilEmpty.string_of_int (Z.to_int z)))
    (Zrange (-1200) 2401) = true.
Proof. vm_compute. reflexivity. Qed.

Example Number_toString_samples :
  map Number_toString
    [ Finite false 25 1; Finite true 1 (-2); Finite false 1 22;
      Finite false 123456 22; Finite false 1 (-6); Finite false 1 (-5);
      number_of_Z 9007199254740991; number_of_Z (-1200) ]
  = [ "2.5"; "-0.001"; "1e+21"; "1.23456e+21"; "1e-7"; "0.000001";
      "9007199254740991"; "-1200" ].
Proof. vm_compute. reflexivity. Qed.

Example is_positive_integer_samples :
  map is_positive_integer
    [ number_of_Z 1; number_of_Z 3; number_of_Z 120; Zero false;
      number_of_Z (-2); Finite false 25 1; NaN; Infinity false ]
  = [ true; true; true; false; false; false; false; false ].
Proof. vm_compute. reflexivity. Qed.

(* ===================================================================== *)
(** ** The shape of the output *)
(* ===================================================================== *)

Section Output.

Variables (title icon href : string) (cols : number) (children : ReactNode).

Let card := Card (CardProps.Build title icon href children).
Let group := CardGroup (CardGroupProps.Build cols children).

Lemma Card_root :
  elementType card = Some Link /\
  map fst (propsOf card) = ["to"; "className"; "children"].
Proof. split; reflexivity. Qed.

Lemma Card_childNodes :
  childNodes card = [heading title; glyph icon; body children].
Proof. reflexivity. Qed.

Lemma CardGroup_root :
  elementType group = Some (Host "div") /\
  map fst (propsOf group) = ["className"; "children"].
Proof. split; reflexivity. Qed.

Lemma CardGroup_classOf :
  classOf group = Some ("card-group cols-" ++ Number_toString cols).
Proof. reflexivity. Qed.

Lemma CardGroup_getChildren : getProp "children" group = Some children.
Proof. reflexivity. Qed.

(** The elements a component creates are counted once each, on top of
    those of [children]. *)
Lemma Card_count_links : countType Link card = S (countType Link children).
Proof. cbn. lia. Qed.

Lemma CardGroup_count_divs :
  countType (Host "div") group = S (countType (Host "div") children).
Proof. cbn. lia. Qed.

End Output.

(** A props record is its four (two) fields. *)
Lemma CardProps_eta (props : CardProps.t) :
  props = CardProps.Build (CardProps.title props) (CardProps.icon props)
            (CardProps.href props) (CardProps.children props).
Proof. now destruct props. Qed.

Lemma CardGroupProps_eta (props : CardGroupProps.t) :
  props = CardGroupProps.Build (CardGroupProps.cols props)
            (CardGroupProps.children props).
Proof. now destruct props. Qed.

(* ===================================================================== *)
(** ** Properties of [Card] and [CardGroup] *)
(* ===================================================================== *)

(** C1.  For every props record [{title, icon, href, children}], [Card]
    returns one element, of type [Link], whose destination [to] is [href];
    it is the only link [Card] creates (the links of the whole output are
    this one and those already inside [children]); among its children are
    the heading [<h3>] with text [title] and the paragraph [<p>] holding
    [children].  On [{title: "Guide", icon: "book", href: "/guide"}] with
    body ["Learn the basics"] the output is a link to [/guide] holding
    [<h3>Guide</h3>], an element of class [icon-book] and
    [<p>Learn the basics</p>]. *)
Theorem Card_renders_link (props : CardProps.t) :
  let out := Card props in
  (elementType out = Some Link /\
   getProp "to" out = Some (RString (CardProps.href props)) /\
   countType Link out = S (countType Link (CardProps.children props))) /\
  (In (heading (CardProps.title props)) (childNodes out) /\
   getProp "children" (heading (CardProps.title props))
     = Some (RString (CardProps.title props)) /\
   In (body (CardProps.children props)) (childNodes out) /\
   getProp "children" (body (CardProps.children props))
     = Some (CardProps.children props)) /\
  Card (CardProps.Build "Guide" "book" "/guide" (RString "Learn the basics"))
  = RElement Link
      [ ("to", RString "/guide"); ("className", RString "card");
        ("children",
          RArray
            [ RElement (Host "h3") [("children", RString "Guide")];
              RElement (Host "i") [("className", RString "icon-book")];
              RElement (Host "p")
                [("children", RString "Learn the basics")] ]) ].
Proof.
  destruct props as [title icon href children]; cbn zeta.
  split; [| split].
  - split; [reflexivity |].
    split; [reflexivity | apply Card_count_links].
  - rewrite Card_childNodes; cbn [In].
    repeat split; auto.
  - reflexivity.
Qed.

(** C2.  For every props record [{cols, children}], [CardGroup] returns one
    element, a [<div>], whose class string is ["card-group cols-"] followed
    by the string form of [cols]; it is the only [<div>] [CardGroup]
    creates.  With [cols = 3] the class is ["card-group cols-3"]. *)
Theorem CardGroup_class (props : CardGroupProps.t) :
  let out := CardGroup props in
  elementType out = Some (Host "div") /\
  classOf out
    = Some ("card-group cols-" ++ Number_toString (CardGroupProps.cols props)) /\
  countType (Host "div") out
    = S (countType (Host "div") (CardGroupProps.children props)) /\
  (forall children,
     classOf (CardGroup (CardGroupProps.Build (number_of_Z 3) children))
     = Some "card-group cols-3").
Proof.
  rewrite (CardGroupProps_eta props); cbn zeta.
  split; [apply CardGroup_root |].
  split; [apply CardGroup_classOf |].
  split; [apply CardGroup_count_divs | reflexivity].
Qed.

(** C3.  The [<div>] returned by [CardGroup] holds [children] itself: its
    [children] prop is the value passed in, so its child sequence is the
    sequence passed in, item by item, with the same length and order.
    [CardGroup({cols: 2}, [A, B])] has class ["card-group cols-2"] and holds
    [A] then [B]. *)
Theorem CardGroup_children (props : CardGroupProps.t) :
  let out := CardGroup props in
  getProp "children" out = Some (CardGroupProps.children props) /\
  childNodes out = items (CardGroupProps.children props) /\
  (forall cols (l : list ReactNode),
     let out' := CardGroup (CardGroupProps.Build cols (RArray l)) in
     childNodes out' = l /\
     List.length (childNodes out') = List.length l /\
     forall i, nth_error (childNodes out') i = nth_error l i) /\
  (forall A B : ReactNode,
     let out' :=
       CardGroup (CardGroupProps.Build (number_of_Z 2) (RArray [A; B])) in
     classOf out' = Some "card-group cols-2" /\ childNodes out' = [A; B]).
Proof.
  destruct props as [cols children]; cbn zeta.
  assert (seq : forall c ch,
             childNodes (CardGroup (CardGroupProps.Build c ch)) = items ch).
  { intros c ch. unfold childNodes.
    now rewrite CardGroup_getChildren. }
  split; [apply CardGroup_getChildren |].
  split; [apply seq |].
  split.
  - intros c l. rewrite seq. cbn [items]. auto.
  - intros A B. rewrite seq. split; reflexivity.
Qed.

(** C4.  For every string [icon], [Card] renders one glyph element [<i>],
    and its class string is ["icon-"] followed by [icon] as it is: the
    class starts with ["icon-"], is five characters longer than [icon], and
    what follows the prefix is [icon].  With [icon = "rocket"] the class is
    ["icon-rocket"]. *)
Theorem Card_glyph_class (props : CardProps.t) :
  let icon := CardProps.icon props in
  map classOf (childrenOfType (Host "i") (Card props))
    = [Some ("icon-" ++ icon)] /\
  (prefix "icon-" ("icon-" ++ icon) = true /\
   String.length ("icon-" ++ icon) = 5 + String.length icon /\
   substring 5 (String.length icon) ("icon-" ++ icon) = icon) /\
  (forall title href children,
     map classOf
       (childrenOfType (Host "i")
          (Card (CardProps.Build title "rocket" href children)))
     = [Some "icon-rocket"]).
Proof.
  destruct props as [title icon href children]; cbn zeta.
  cbn [CardProps.icon].
  split; [reflexivity |].
  split; [| reflexivity].
  split; [apply prefix_append |].
  split; [apply (length_append "icon-" icon) |].
  apply (substring_append "icon-" icon).
Qed.

(** *** Calls that allocate *)

(** Induction on a tree, with the property available for every item of an
    array and every prop value of an element. *)
Lemma ReactNode_nested_ind (P : ReactNode -> Prop) :
  P RUndefined -> P RNull -> (forall b, P (RBoolean b)) ->
  (forall x, P (RNumber x)) -> (forall s, P (RString s)) ->
  (forall l, Forall P l -> P (RArray l)) ->
  (forall type props,
     Forall (fun kv => P (snd kv)) props -> P (RElement type props)) ->
  forall node, P node.
Proof.
  intros Hundef Hnull Hbool Hnum Hstr Harr Helt.
  fix IH 1.
  intros [ | | b | x | s | l | type props].
  - exact Hundef.
  - exact Hnull.
  - apply Hbool.
  - apply Hnum.
  - apply Hstr.
  - apply Harr.
    induction l as [| item l IHl]; constructor; [apply IH | exact IHl].
  - apply Helt.
    induction props as [| [key value] props IHprops]; constructor;
      [apply IH | exact IHprops].
Qed.

(** Every tree is denoted by some object: the props of the allocating
    components range over all the trees. *)
Lemma Alloc_erase_inject (ref : nat) (node : ReactNode) :
  Alloc.erase (Alloc.inject ref node) = node.
Proof.
  induction node as [ | | b | x | s | l IHl | type props IHprops]
    using ReactNode_nested_ind; cbn; try reflexivity; f_equal.
  - induction IHl as [| item l Hitem _ IH]; cbn; [reflexivity |].
    now rewrite Hitem, IH.
  - induction IHprops as [| [key value] props Hvalue _ IH]; cbn;
      [reflexivity |].
    cbn in Hvalue. now rewrite Hvalue, IH.
Qed.

(** A call of [Card] allocates four elements, the link last; what it
    returns denotes the tree [Card] computes from the same props. *)
Lemma Alloc_Card_run (props : Alloc.CardProps.t) (next : nat) :
  Alloc.erase (evalState (Alloc.Card props) next)
    = Card (Alloc.CardProps.erase props) /\
  Alloc.refOf (evalState (Alloc.Card props) next) = Some (3 + next) /\
  execState (Alloc.Card props) next = 4 + next.
Proof. destruct props; repeat split. Qed.

Lemma Alloc_CardGroup_run (props : Alloc.CardGroupProps.t) (next : nat) :
  Alloc.erase (evalState (Alloc.CardGroup props) next)
    = CardGroup (Alloc.CardGroupProps.erase props) /\
  Alloc.refOf (evalState (Alloc.CardGroup props) next) = Some next /\
  execState (Alloc.CardGroup props) next = 1 + next.
Proof. destruct props; repeat split. Qed.

(** [Card] and [CardGroup], the functions on trees, are what the allocating
    calls denote, for all props. *)
Lemma Card_denotation (props : CardProps.t) (ref next : nat) :
  Alloc.erase (evalState (Alloc.Card (Alloc.CardProps.inject ref props)) next)
  = Card props.
Proof.
  destruct (Alloc_Card_run (Alloc.CardProps.inject ref props) next) as [-> _].
  destruct props as [title icon href children].
  unfold Alloc.CardProps.inject, Alloc.CardProps.erase; cbn.
  now rewrite Alloc_erase_inject.
Qed.

Lemma CardGroup_denotation (props : CardGroupProps.t) (ref next : nat) :
  Alloc.erase
    (evalState (Alloc.CardGroup (Alloc.CardGroupProps.inject ref props)) next)
  = CardGroup props.
Proof.
  destruct (Alloc_CardGroup_run (Alloc.CardGroupProps.inject ref props) next)
    as [-> _].
  destruct props as [cols children].
  unfold Alloc.CardGroupProps.inject, Alloc.CardGroupProps.erase; cbn.
  now rewrite Alloc_erase_inject.
Qed.

(** The two results of [twice] are the results of two runs, the second
    one started where the first one stopped. *)
Lemma Alloc_twice_run {A : Type} (render : state nat A) (next : nat) :
  evalState (Alloc.twice render) next
    = (evalState render next, evalState render (execState render next)).
Proof.
  unfold Alloc.twice, evalState, execState; cbn.
  destruct (runState render next) as [first next']; cbn.
  now destruct (runState render next') as [second next''].
Qed.

(** C5.  Rendering is deterministic: whatever the state of the allocator,
    a call of [Card] (of [CardGroup]) on given props returns an object that
    denotes the same tree.  In particular two calls in a row on the same
    props return two distinct objects with the same structure. *)
Theorem render_deterministic :
  (forall (props : Alloc.CardProps.t) (next1 next2 : nat),
     Alloc.erase (evalState (Alloc.Card props) next1)
     = Alloc.erase (evalState (Alloc.Card props) next2)) /\
  (forall (props : Alloc.CardGroupProps.t) (next1 next2 : nat),
     Alloc.erase (evalState (Alloc.CardGroup props) next1)
     = Alloc.erase (evalState (Alloc.CardGroup props) next2)) /\
  (forall (props : Alloc.CardProps.t) (next : nat),
     let runs := evalState (Alloc.twice (Alloc.Card props)) next in
     Alloc.erase (fst runs) = Alloc.erase (snd runs) /\
     Alloc.refOf (fst runs) <> Alloc.refOf (snd runs)) /\
  (forall (props : Alloc.CardGroupProps.t) (next : nat),
     let runs := evalState (Alloc.twice (Alloc.CardGroup props)) next in
     Alloc.erase (fst runs) = Alloc.erase (snd runs) /\
     Alloc.refOf (fst runs) <> Alloc.refOf (snd runs)).
Proof.
  assert (card : forall props next1 next2,
             Alloc.erase (evalState (Alloc.Card props) next1)
             = Alloc.erase (evalState (Alloc.Card props) next2)).
  { intros props next1 next2.
    destruct (Alloc_Card_run props next1) as [-> _].
    now destruct (Alloc_Card_run props next2) as [-> _]. }
  assert (group : forall props next1 next2,
             Alloc.erase (evalState (Alloc.CardGroup props) next1)
             = Alloc.erase (evalState (Alloc.CardGroup props) next2)).
  { intros props next1 next2.
    destruct (Alloc_CardGroup_run props next1) as [-> _].
    now destruct (Alloc_CardGroup_run props next2) as [-> _]. }
  split; [exact card |].
  split; [exact group |].
  split; intros props next; cbn zeta;
    rewrite Alloc_twice_run; cbn [fst snd]; (split; [auto |]).
  - destruct (Alloc_Card_run props next) as (_ & -> & ->).
    destruct (Alloc_Card_run props (4 + next)) as (_ & -> & _).
    intros same; injection same; lia.
  - destruct (Alloc_CardGroup_run props next) as (_ & -> & ->).
    destruct (Alloc_CardGroup_run props (1 + next)) as (_ & -> & _).
    intros same; injection same; lia.
Qed.

(** C6.  The link returned by [Card] carries the class ["card"].  The class
    strings in the output of [Card] are ["card"], then ["icon-" + icon] on
    the glyph, then those already inside [children]; in the output of
    [CardGroup] they are ["card-group cols-" + cols], then those inside
    [children].  The components add no other class. *)
Theorem emitted_classes
  (title icon href : string) (cols : number) (children : ReactNode) :
  let card := Card (CardProps.Build title icon href children) in
  let group := CardGroup (CardGroupProps.Build cols children) in
  classOf card = Some "card" /\
  classNames card = "card" :: ("icon-" ++ icon) :: classNames children /\
  classNames group
    = ("card-group cols-" ++ Number_toString cols) :: classNames children.
Proof.
  cbn zeta. split; [reflexivity |].
  split; cbn; now rewrite !app_nil_r.
Qed.

(** C7.  [CardGroup] does not look at [cols] before using it: for every
    number, a positive integer or not, it returns the [<div>] with class
    ["card-group cols-"] followed by the string form of the number, holding
    [children].  So it does for zero, negative zero, a negative integer, a
    fraction, [NaN] and the infinities. *)
Theorem CardGroup_cols_unvalidated (cols : number) (children : ReactNode) :
  let out := CardGroup (CardGroupProps.Build cols children) in
  (elementType out = Some (Host "div") /\
   classOf out = Some ("card-group cols-" ++ Number_toString cols) /\
   getProp "children" out = Some children) /\
  map (fun c =>
         (is_positive_integer c,
          classOf (CardGroup (CardGroupProps.Build c children))))
    [ Zero false; Zero true; number_of_Z (-1); Finite false 25 1;
      Finite true 5 0; NaN; Infinity false; Infinity true ]
  = [ (false, Some "card-group cols-0"); (false, Some "card-group cols-0");
      (false, Some "card-group cols--1"); (false, Some "card-group cols-2.5");
      (false, Some "card-group cols--0.5"); (false, Some "card-group cols-NaN");
      (false, Some "card-group cols-Infinity");
      (false, Some "card-group cols--Infinity") ].
Proof.
  cbn zeta. split.
  - split; [apply CardGroup_root |].
    split; [apply CardGroup_classOf | apply CardGroup_getChildren].
  - reflexivity.
Qed.

(** C8.  [Card] does not look at [href] either: for every string, the
    [to] prop of the link is that string, character for character, and the
    output is the link element.  So it is for the empty string and for
    strings that are no destination at all. *)
Theorem Card_href_verbatim (props : CardProps.t) :
  let out := Card props in
  (elementType out = Some Link /\
   getProp "to" out = Some (RString (CardProps.href props))) /\
  (forall title icon children,
     map (fun h => getProp "to" (Card (CardProps.Build title icon h children)))
       [ ""; "ht!tp://[::bad"; "  /a b?#%zz" ]
     = [ Some (RString ""); Some (RString "ht!tp://[::bad");
         Some (RString "  /a b?#%zz") ]).
Proof.
  destruct props as [title icon href children]; cbn zeta.
  split; [split |]; reflexivity.
Qed.

(** C9.  The children of the link are, in this order, the heading
    [<h3>] with [title], the glyph [<i>] and the paragraph [<p>] with
    [children]; the glyph has no [children] prop and no child. *)
Theorem Card_children_order (props : CardProps.t) :
  let out := Card props in
  childNodes out
    = [ heading (CardProps.title props); glyph (CardProps.icon props);
        body (CardProps.children props) ] /\
  map elementType (childNodes out)
    = [ Some (Host "h3"); Some (Host "i"); Some (Host "p") ] /\
  childrenOfType (Host "i") out = [glyph (CardProps.icon props)] /\
  getProp "children" (glyph (CardProps.icon props)) = None /\
  childNodes (glyph (CardProps.icon props)) = [].
Proof.
  destruct props as [title icon href children]; cbn zeta.
  rewrite Card_childNodes. repeat split.
Qed.

(** C10.  [cols] reaches the output of [CardGroup] through the class string
    only: for any two numbers and the same [children], the two outputs have
    the same type and the same prop names, hold the same [children], and
    are equal once the [className] prop is left out. *)
Theorem CardGroup_cols_frame (cols1 cols2 : number) (children : ReactNode) :
  let out1 := CardGroup (CardGroupProps.Build cols1 children) in
  let out2 := CardGroup (CardGroupProps.Build cols2 children) in
  withoutProp "className" out1 = withoutProp "className" out2 /\
  elementType out1 = elementType out2 /\
  map fst (propsOf out1) = map fst (propsOf out2) /\
  getProp "children" out1 = Some children /\
  getProp "children" out2 = Some children.
Proof.
  cbn zeta. split; [reflexivity |].
  split; [now rewrite !(proj1 (CardGroup_root _ _)) |].
  split; [now rewrite !(proj2 (CardGroup_root _ _)) |].
  split; apply CardGroup_getChildren.
Qed.

(* ===================================================================== *)
(** ** Class strings: auxiliary facts *)
(* ===================================================================== *)

Lemma memChar_true (c : ascii) (alphabet : string) :
  memChar c alphabet = true <-> exists before after,
    alphabet = before ++ String c after.
Proof.
  induction alphabet as [| a rest IH]; cbn.
  - split; [discriminate |].
    intros (before & after & H). now destruct before.
  - rewrite orb_true_iff, Ascii.eqb_eq, IH. split.
    + intros [-> | (before & after & ->)].
      * now exists "", rest.
      * now exists (String a before), after.
    + intros (before & after & H). destruct before as [| x before]; cbn in H.
      * left. congruence.
      * right. exists before, after. congruence.
Qed.

Lemma hasSpace_app (a b : string) :
  hasSpace (a ++ b) = hasSpace a || hasSpace b.
Proof.
  induction a as [| c a IH]; cbn; [reflexivity |].
  now rewrite IH, orb_assoc.
Qed.

Lemma charsIn_app (alphabet a b : string) :
  charsIn alphabet (a ++ b) = charsIn alphabet a && charsIn alphabet b.
Proof.
  induction a as [| c a IH]; cbn; [reflexivity |].
  now rewrite IH, andb_assoc.
Qed.

Lemma charsIn_substring (alphabet s : string) :
  charsIn alphabet s = true ->
  forall n m, charsIn alphabet (substring n m s) = true.
Proof.
  induction s as [| c s IH]; intros Hs n m.
  - now destruct n, m.
  - cbn in Hs. apply andb_prop in Hs as [Hc Hs].
    destruct n as [| n]; [destruct m as [| m] |]; cbn; auto.
    now rewrite Hc, IH.
Qed.

(** A string over one alphabet is a string over any alphabet that has the
    characters of the first. *)
Lemma charsIn_weaken (small large s : string) :
  charsIn large small = true ->
  charsIn small s = true -> charsIn large s = true.
Proof.
  intros Hsub. induction s as [| c s IH]; cbn; [reflexivity |].
  intros H. apply andb_prop in H as [Hc Hs].
  rewrite (IH Hs), andb_true_r.
  apply memChar_true in Hc as (before & after & ->).
  rewrite charsIn_app in Hsub. apply andb_prop in Hsub as [_ Hsub].
  cbn in Hsub. now apply andb_prop in Hsub as [Hc _].
Qed.

Lemma charsIn_zeros (alphabet : string) (count : nat) :
  memChar "0" alphabet = true -> charsIn alphabet (zeros count) = true.
Proof.
  intros H0. induction count as [| count IH]; cbn; [reflexivity |].
  now rewrite H0, IH.
Qed.

Lemma charsIn_digits (s : positive) : charsIn "0123456789" (digits s) = true.
Proof.
  unfold digits.
  induction (Pos.to_uint s) as [| d IH | d IH | d IH | d IH | d IH
                                | d IH | d IH | d IH | d IH | d IH];
    cbn; auto.
Qed.

Lemma length_zeros (count : nat) : String.length (zeros count) = count.
Proof. induction count as [| count IH]; cbn; congruence. Qed.

(** A string over an alphabet without white space has no white space. *)
Lemma charsIn_hasSpace (alphabet s : string) :
  hasSpace alphabet = false -> charsIn alphabet s = true ->
  hasSpace s = false.
Proof.
  intros Hal. induction s as [| c s IH]; cbn; [reflexivity |].
  intros H. apply andb_prop in H as [Hc Hs].
  rewrite (IH Hs), orb_false_r.
  apply memChar_true in Hc as (before & after & ->).
  rewrite hasSpace_app in Hal. apply orb_false_elim in Hal as [_ Hal].
  cbn in Hal. now apply orb_false_elim in Hal as [Hc _].
Qed.

(** The string form of a number is written in [numberAlphabet]. *)
Lemma charsIn_toString_finite (s : positive) (n : Z) :
  charsIn numberAlphabet (toString_finite s n) = true.
Proof.
  assert (dig : forall p, charsIn numberAlphabet (digits p) = true).
  { intros p. now apply (charsIn_weaken "0123456789"), charsIn_digits. }
  assert (zer : forall c, charsIn numberAlphabet (zeros c) = true).
  { intros c. now apply charsIn_zeros. }
  assert (sub : forall p i j,
             charsIn numberAlphabet (substring i j (digits p)) = true).
  { intros p i j. now apply charsIn_substring. }
  unfold toString_finite; cbn zeta.
  repeat match goal with
         | |- context [if ?b then _ else _] => destruct b
         end;
    repeat (rewrite charsIn_app; apply andb_true_intro; split);
    auto.
Qed.

Lemma charsIn_Number_toString (x : number) :
  charsIn numberAlphabet (Number_toString x) = true.
Proof.
  destruct x as [| neg | [|] | [|] s n]; cbn; try reflexivity;
    apply charsIn_toString_finite.
Qed.

Lemma hasSpace_Number_toString (x : number) :
  hasSpace (Number_toString x) = false.
Proof.
  now apply (charsIn_hasSpace numberAlphabet), charsIn_Number_toString.
Qed.

(** A string without white space is one piece. *)
Lemma splitSpaces_word (s : string) :
  hasSpace s = false -> splitSpaces s = [s].
Proof.
  induction s as [| c s IH]; cbn [hasSpace splitSpaces]; [reflexivity |].
  intros H. apply orb_false_elim in H as [Hc Hs].
  now rewrite Hc, (IH Hs).
Qed.

(** The first white space character ends the first piece. *)
Lemma splitSpaces_app (a b : string) (c : ascii) :
  hasSpace a = false -> isSpace c = true ->
  splitSpaces (a ++ String c b) = a :: splitSpaces b.
Proof.
  intros Ha Hc. induction a as [| x a IH]; cbn [append splitSpaces].
  - now rewrite Hc.
  - cbn [hasSpace] in Ha. apply orb_false_elim in Ha as [Hx Ha].
    now rewrite Hx, (IH Ha).
Qed.

Lemma classTokens_word (s : string) :
  hasSpace s = false -> s <> "" -> classTokens s = [s].
Proof.
  intros Hs Hne. unfold classTokens. rewrite (splitSpaces_word s Hs); cbn.
  destruct (String.eqb_spec s ""); [contradiction | reflexivity].
Qed.

Lemma classTokens_app (a b : string) (c : ascii) :
  hasSpace a = false -> a <> "" -> isSpace c = true ->
  classTokens (a ++ String c b) = a :: classTokens b.
Proof.
  intros Ha Hne Hc. unfold classTokens.
  rewrite (splitSpaces_app a b c Ha Hc); cbn.
  destruct (String.eqb_spec a ""); [contradiction | reflexivity].
Qed.

(* ===================================================================== *)
(** ** Further properties of the components *)
(* ===================================================================== *)

Lemma ElementType_eqb_eq (a b : ElementType) :
  ElementType_eqb a b = true <-> a = b.
Proof.
  destruct a as [x | x], b as [y | y]; cbn;
    try (split; [discriminate | congruence]);
    rewrite String.eqb_eq; split; congruence.
Qed.

Lemma ElementType_eqb_neq (a b : ElementType) :
  a <> b -> ElementType_eqb a b = false.
Proof.
  intros Hne. destruct (ElementType_eqb a b) eqn:E; [| reflexivity].
  now apply ElementType_eqb_eq in E.
Qed.

(** The elements of type [t] in the output: those the component creates
    and those of [children]. *)
Lemma Card_countType (t : ElementType) (props : CardProps.t) :
  countType t (Card props)
  = List.length
      (filter (fun created => ElementType_eqb created t)
         [Link; Host "h3"; Host "i"; Host "p"])
    + countType t (CardProps.children props).
Proof.
  destruct props as [title icon href children].
  unfold Card, jsxs, jsx.
  cbn [countType app map list_sum fold_right snd filter
       CardProps.children].
  repeat match goal with
         | |- context [if ElementType_eqb ?a t then _ else _] =>
             destruct (ElementType_eqb a t)
         end; cbn [List.length]; lia.
Qed.

Lemma CardGroup_countType (t : ElementType) (props : CardGroupProps.t) :
  countType t (CardGroup props)
  = (if ElementType_eqb (Host "div") t then 1 else 0)
    + countType t (CardGroupProps.children props).
Proof.
  destruct props as [cols children].
  unfold CardGroup, jsx.
  cbn [countType map list_sum fold_right snd CardGroupProps.children]. lia.
Qed.

Lemma Card_classNames (props : CardProps.t) :
  classNames (Card props)
  = "card" :: ("icon-" ++ CardProps.icon props)
      :: classNames (CardProps.children props).
Proof. destruct props; cbn. now rewrite !app_nil_r. Qed.

(** X1.  [Card] loses nothing of its props: two props records with the
    same output are the same record. *)
Theorem Card_injective (p q : CardProps.t) : Card p = Card q -> p = q.
Proof.
  destruct p as [title1 icon1 href1 children1],
           q as [title2 icon2 href2 children2].
  unfold Card, jsxs, jsx; cbn [app append].
  intros same. injection same as -> -> -> ->. reflexivity.
Qed.

Lemma Card_injective_witness :
  CardProps.Build "Guide" "book" "/guide" (RString "Learn the basics")
  = CardProps.Build "Guide" "book" "/guide" (RString "Learn the basics").
Proof.
  apply (Card_injective
           (CardProps.Build "Guide" "book" "/guide" (RString "Learn the basics"))
           (CardProps.Build "Guide" "book" "/guide" (RString "Learn the basics"))).
  reflexivity.
Defined.

(** X2.  The output of [CardGroup] is determined by [children] and by the
    string form of [cols], and determines both: two props records give the
    same output exactly when they have the same [children] and their [cols]
    print the same (as [0] and [-0] do). *)
Theorem CardGroup_same_output (p q : CardGroupProps.t) :
  CardGroup p = CardGroup q <->
  CardGroupProps.children p = CardGroupProps.children q /\
  Number_toString (CardGroupProps.cols p)
  = Number_toString (CardGroupProps.cols q).
Proof.
  destruct p as [cols1 children1], q as [cols2 children2].
  unfold CardGroup, jsx; cbn [CardGroupProps.children CardGroupProps.cols].
  split.
  - cbn [append]. intros same. injection same as -> ->. auto.
  - intros [-> ->]. reflexivity.
Qed.

Lemma CardGroup_same_output_witness :
  CardGroup (CardGroupProps.Build (Zero true) RNull)
  = CardGroup (CardGroupProps.Build (Zero false) RNull).
Proof.
  apply (proj2 (CardGroup_same_output
                  (CardGroupProps.Build (Zero true) RNull)
                  (CardGroupProps.Build (Zero false) RNull))).
  split; reflexivity.
Defined.

Lemma sum_links_of_cards (ps : list CardProps.t) :
  list_sum (map (countType Link) (map Card ps))
  = List.length ps
    + list_sum (map (fun p => countType Link (CardProps.children p)) ps).
Proof.
  assert (step : forall x l, list_sum (x :: l) = x + list_sum l)
    by reflexivity.
  induction ps as [| p ps IH]; cbn [map List.length]; [reflexivity |].
  rewrite !step, IH, (Card_countType Link p).
  cbn [filter ElementType_eqb Link String.eqb Ascii.eqb Bool.eqb
       List.length].
  lia.
Qed.

(** X3.  A group of cards: [CardGroup] over the outputs of [Card] on a list
    of props holds these outputs in order, one per props record; the
    destinations of its children are the [href]s in order; the links of the
    whole tree are one per card and those inside the bodies of the cards. *)
Theorem group_of_cards_links (cols : number) (ps : list CardProps.t) :
  let out := CardGroup (CardGroupProps.Build cols (RArray (map Card ps))) in
  childNodes out = map Card ps /\
  List.length (childNodes out) = List.length ps /\
  map (getProp "to") (childNodes out)
    = map (fun p => Some (RString (CardProps.href p))) ps /\
  countType Link out
    = List.length ps
      + list_sum (map (fun p => countType Link (CardProps.children p)) ps).
Proof.
  cbn zeta.
  replace (childNodes
             (CardGroup (CardGroupProps.Build cols (RArray (map Card ps)))))
    with (map Card ps) by reflexivity.
  split; [reflexivity |].
  split; [apply length_map |].
  split.
  - rewrite map_map. apply map_ext. now intros [title icon href children].
  - rewrite CardGroup_countType.
    cbn [CardGroupProps.children countType ElementType_eqb Link].
    apply sum_links_of_cards.
Qed.

(** X4.  The class strings of a group of cards, in document order: that of
    the group, then for each card ["card"], its ["icon-" + icon] and the
    classes inside its body. *)
Theorem group_of_cards_classes (cols : number) (ps : list CardProps.t) :
  classNames (CardGroup (CardGroupProps.Build cols (RArray (map Card ps))))
  = ("card-group cols-" ++ Number_toString cols)
      :: flat_map
           (fun p => "card" :: ("icon-" ++ CardProps.icon p)
                       :: classNames (CardProps.children p))
           ps.
Proof.
  unfold CardGroup, jsx.
  cbn [classNames lookup String.eqb Ascii.eqb Bool.eqb flat_map snd app].
  rewrite app_nil_r. f_equal.
  induction ps as [| p ps IH]; cbn [map flat_map]; [reflexivity |].
  now rewrite IH, Card_classNames.
Qed.

(** X5.  [CardGroup] creates a [<div>] and nothing else: for every other
    element type, the elements of that type in its output are those of
    [children]. *)
Theorem CardGroup_adds_only_div (t : ElementType) (props : CardGroupProps.t) :
  t <> Host "div" ->
  countType t (CardGroup props) = countType t (CardGroupProps.children props).
Proof.
  intros Hne. rewrite CardGroup_countType.
  rewrite ElementType_eqb_neq; [reflexivity | congruence].
Qed.

Lemma CardGroup_adds_only_div_witness :
  countType Link
    (CardGroup (CardGroupProps.Build (Finite false 2 1)
                  (RElement Link [("to", RString "/a")])))
  = countType Link (RElement Link [("to", RString "/a")]).
Proof.
  apply (CardGroup_adds_only_div Link
           (CardGroupProps.Build (Finite false 2 1)
              (RElement Link [("to", RString "/a")]))).
  discriminate.
Defined.

(** X6.  [Card] creates a link, an [<h3>], an [<i>] and a [<p>] and nothing
    else: for every other element type, the elements of that type in its
    output are those of [children]. *)
Theorem Card_adds_only_four (t : ElementType) (props : CardProps.t) :
  t <> Link -> t <> Host "h3" -> t <> Host "i" -> t <> Host "p" ->
  countType t (Card props) = countType t (CardProps.children props).
Proof.
  intros Hlink Hh3 Hi Hp. rewrite Card_countType. cbn [filter].
  rewrite !ElementType_eqb_neq by congruence. reflexivity.
Qed.

Lemma Card_adds_only_four_witness :
  countType (Host "div")
    (Card (CardProps.Build "Guide" "book" "/guide"
             (RElement (Host "div") [])))
  = countType (Host "div") (RElement (Host "div") []).
Proof.
  apply (Card_adds_only_four (Host "div")
           (CardProps.Build "Guide" "book" "/guide"
              (RElement (Host "div") [])));
    discriminate.
Defined.

(** X7.  For every number [cols], the class string of the [<div>] is two
    names, ["card-group"] and ["cols-"] followed by the string form of
    [cols]: that string form holds no white space, being written with
    digits and the characters of [.], [e+], [e-], [-], [NaN] and
    [Infinity]. *)
Theorem CardGroup_class_tokens (cols : number) (children : ReactNode) :
  option_map classTokens
    (classOf (CardGroup (CardGroupProps.Build cols children)))
  = Some ["card-group"; "cols-" ++ Number_toString cols] /\
  charsIn numberAlphabet (Number_toString cols) = true.
Proof.
  split; [| apply charsIn_Number_toString].
  rewrite CardGroup_classOf; cbn [option_map]. f_equal.
  change ("card-group cols-" ++ Number_toString cols)
    with ("card-group" ++ String " " ("cols-" ++ Number_toString cols)).
  rewrite classTokens_app by (reflexivity || discriminate).
  rewrite classTokens_word; [reflexivity | | discriminate].
  rewrite hasSpace_app. apply hasSpace_Number_toString.
Qed.

Lemma glyph_classOf (title icon href : string) (children : ReactNode) :
  map classOf
    (childrenOfType (Host "i")
       (Card (CardProps.Build title icon href children)))
  = [Some ("icon-" ++ icon)].
Proof. reflexivity. Qed.

(** X8.  [Card] puts [icon] into the class string as it is, white space
    included: when [icon] is a word, a space and a rest, the glyph gets the
    name ["icon-" + word] and then the names of the rest, which carry no
    prefix. *)
Theorem Card_glyph_tokens_split
  (title word rest href : string) (children : ReactNode) :
  hasSpace word = false ->
  map (fun g => option_map classTokens (classOf g))
    (childrenOfType (Host "i")
       (Card (CardProps.Build title (word ++ " " ++ rest) href children)))
  = [Some (("icon-" ++ word) :: classTokens rest)].
Proof.
  intros Hword.
  rewrite <- (map_map classOf (option_map classTokens)), glyph_classOf.
  cbn [map option_map]. do 2 f_equal.
  change ("icon-" ++ word ++ " " ++ rest)
    with (("icon-" ++ word) ++ String " " rest).
  apply classTokens_app; [| discriminate | reflexivity].
  now rewrite hasSpace_app.
Qed.

Lemma Card_glyph_tokens_split_witness :
  map (fun g => option_map classTokens (classOf g))
    (childrenOfType (Host "i")
       (Card (CardProps.Build "Guide" ("book" ++ " " ++ "open") "/guide"
                RNull)))
  = [Some (("icon-" ++ "book") :: classTokens "open")].
Proof.
  apply (Card_glyph_tokens_split "Guide" "book" "open" "/guide" RNull).
  reflexivity.
Defined.

(** X9.  When [icon] holds no white space, the glyph has one class name,
    ["icon-" + icon]. *)
Theorem Card_glyph_single_token (props : CardProps.t) :
  hasSpace (CardProps.icon props) = false ->
  map (fun g => option_map classTokens (classOf g))
    (childrenOfType (Host "i") (Card props))
  = [Some ["icon-" ++ CardProps.icon props]].
Proof.
  destruct props as [title icon href children]; cbn [CardProps.icon].
  intros Hicon.
  rewrite <- (map_map classOf (option_map classTokens)), glyph_classOf.
  cbn [map option_map]. do 2 f_equal.
  apply classTokens_word; [| discriminate].
  now rewrite hasSpace_app.
Qed.

Lemma Card_glyph_single_token_witness :
  map (fun g => option_map classTokens (classOf g))
    (childrenOfType (Host "i")
       (Card (CardProps.Build "Launch" "rocket" "/launch" RNull)))
  = [Some ["icon-rocket"]].
Proof.
  apply (Card_glyph_single_token
           (CardProps.Build "Launch" "rocket" "/launch" RNull)).
  reflexivity.
Defined.

(** X10.  For [cols] a positive integer, the class of the [<div>] ends in
    decimal digits only exactly when [cols] is below [10^21] (its
    expansion has [n <= 21] digits before the point), and then in [n]
    digits; from [10^21] on, the string form is in exponent notation. *)
Theorem CardGroup_integer_cols (s : positive) (n : Z) (children : ReactNode) :
  is_positive_integer (Finite false s n) = true ->
  let str := Number_toString (Finite false s n) in
  classOf (CardGroup (CardGroupProps.Build (Finite false s n) children))
    = Some ("card-group cols-" ++ str) /\
  (charsIn "0123456789" str = true <-> (n <= 21)%Z) /\
  ((n <= 21)%Z -> Z.of_nat (String.length str) = n).
Proof.
  cbn [is_positive_integer Number_toString]; intros Hint; cbn zeta.
  split; [reflexivity |].
  apply Z.leb_le in Hint.
  unfold toString_finite; cbn zeta.
  pose proof (charsIn_digits s) as Hdigits.
  set (d := digits s) in *.
  set (k := Z.of_nat (String.length d)) in *.
  assert (0 <= k)%Z by (subst k; lia).
  destruct (Z.leb_spec n 21) as [Hsmall | Hlarge].
  - replace (-5 <=? n)%Z with true by (symmetry; apply Z.leb_le; lia).
    replace (k <=? n)%Z with true by (symmetry; now apply Z.leb_le).
    cbn [andb]. split.
    + split; [auto |]. intros _.
      now rewrite charsIn_app, Hdigits, charsIn_zeros.
    + intros _. rewrite length_append, length_zeros. subst k. lia.
  - rewrite andb_false_r. split; [| lia].
    split; [| lia]. intros Hall. exfalso; revert Hall.
    destruct (k =? 1)%Z; rewrite charsIn_app; cbn;
      rewrite andb_false_r; discriminate.
Qed.

Lemma CardGroup_integer_cols_witness :
  let str := Number_toString (Finite false 12 2) in
  classOf (CardGroup (CardGroupProps.Build (Finite false 12 2) RNull))
    = Some ("card-group cols-" ++ str) /\
  (charsIn "0123456789" str = true <-> (2 <= 21)%Z) /\
  ((2 <= 21)%Z -> Z.of_nat (String.length str) = 2%Z).
Proof.
  apply (CardGroup_integer_cols 12 2 RNull). reflexivity.
Defined.

(** *** The allocator *)

Lemma Alloc_Card_refs (props : Alloc.CardProps.t) (next : nat) :
  Alloc.refs (evalState (Alloc.Card props) next)
  = ([3 + next; next; 1 + next; 2 + next]
     ++ Alloc.refs (Alloc.CardProps.children props))%list.
Proof. destruct props; cbn. now rewrite !app_nil_r. Qed.

Lemma Alloc_CardGroup_refs (props : Alloc.CardGroupProps.t) (next : nat) :
  Alloc.refs (evalState (Alloc.CardGroup props) next)
  = next :: Alloc.refs (Alloc.CardGroupProps.children props).
Proof. destruct props; cbn. now rewrite !app_nil_r. Qed.

(** X11.  [Card] keeps the invariant of the allocator: when the elements of
    [children] have distinct references, all handed out before the call,
    so have the elements of the output with respect to the state after the
    call; the four new elements share no reference with each other or with
    [children]. *)
Theorem Alloc_Card_wellFormed (props : Alloc.CardProps.t) (next : nat) :
  Alloc.wellFormed next (Alloc.CardProps.children props) ->
  Alloc.wellFormed (execState (Alloc.Card props) next)
    (evalState (Alloc.Card props) next).
Proof.
  intros [Hdistinct Hbelow]. unfold Alloc.wellFormed.
  rewrite Alloc_Card_refs.
  destruct (Alloc_Card_run props next) as (_ & _ & ->).
  rewrite Forall_forall in Hbelow.
  split.
  - cbn [app]. repeat constructor; trivial; cbn [In];
      intros Hin;
      repeat match goal with
             | H : _ \/ _ |- _ => destruct H as [H | H]
             end;
      try lia; apply Hbelow in Hin; lia.
  - apply Forall_app. split.
    + repeat constructor; lia.
    + apply Forall_forall. intros ref Hin. apply Hbelow in Hin. lia.
Qed.

Lemma Alloc_Card_wellFormed_witness :
  Alloc.wellFormed
    (execState
       (Alloc.Card
          (Alloc.CardProps.Build "Guide" "book" "/guide"
             (Alloc.OElement 0 (Host "b") [])))
       1)
    (evalState
       (Alloc.Card
          (Alloc.CardProps.Build "Guide" "book" "/guide"
             (Alloc.OElement 0 (Host "b") [])))
       1).
Proof.
  apply (Alloc_Card_wellFormed
           (Alloc.CardProps.Build "Guide" "book" "/guide"
              (Alloc.OElement 0 (Host "b") []))
           1).
  split; cbn; repeat constructor; intros [].
Defined.

(** X12.  [CardGroup] keeps the invariant of the allocator as well: its one
    new element gets a reference that no element of [children] has. *)
Theorem Alloc_CardGroup_wellFormed
  (props : Alloc.CardGroupProps.t) (next : nat) :
  Alloc.wellFormed next (Alloc.CardGroupProps.children props) ->
  Alloc.wellFormed (execState (Alloc.CardGroup props) next)
    (evalState (Alloc.CardGroup props) next).
Proof.
  intros [Hdistinct Hbelow]. unfold Alloc.wellFormed.
  rewrite Alloc_CardGroup_refs.
  destruct (Alloc_CardGroup_run props next) as (_ & _ & ->).
  rewrite Forall_forall in Hbelow.
  split.
  - constructor; [| exact Hdistinct].
    intros Hin. apply Hbelow in Hin. lia.
  - constructor; [lia |].
    apply Forall_forall. intros ref Hin. apply Hbelow in Hin. lia.
Qed.

Lemma Alloc_CardGroup_wellFormed_witness :
  Alloc.wellFormed
    (execState
       (Alloc.CardGroup
          (Alloc.CardGroupProps.Build (Finite false 2 1)
             (Alloc.OElement 0 (Host "b") [])))
       1)
    (evalState
       (Alloc.CardGroup
          (Alloc.CardGroupProps.Build (Finite false 2 1)
             (Alloc.OElement 0 (Host "b") [])))
       1).
Proof.
  apply (Alloc_CardGroup_wellFormed
           (Alloc.CardGroupProps.Build (Finite false 2 1)
              (Alloc.OElement 0 (Host "b") []))
           1).
  split; cbn; repeat constructor; intros [].
Defined.
